(** * generate_apple_jwt.py: the Apple Sign In JWT helper script

    A shallow embedding of [src/generate_apple_jwt.py].  The script is one
    function, [main], a straight line of [print] calls around two clock
    reads.  It is embedded as a computation in a small reader/state monad
    whose calls end with a value or with an exception:

    - the reader part, [World], holds what the interpreter and the platform
      hand to the script: the argument vector, [__file__], the value
      returned by [time.time()] at line 44, the value returned by
      [datetime.now()] at line 45 and the platform's conversion from local
      wall-clock seconds to POSIX seconds used by [datetime.timestamp()];
    - the state part, [Process], holds everything the script could act on:
      the standard output stream, the file system, the files and sockets it
      has opened and the environment variables.

    That embedding prints on a stream that takes every text.  For how a
    run ends and for the order of its clock reads the script is embedded a
    second time, [main_on], over a stream that can refuse a write or the
    flush at exit, with a trace of the writes and of the clock reads; on a
    stream that takes the output both embeddings print the same text.

    Python values are embedded as follows: [str] as [string], [int] as [Z],
    the [float]s of the clock as the rationals they denote ([Q]), a [dict]
    literal as an association list in insertion order, a naive [datetime]
    as a count of microseconds on the local wall-clock time line. *)

From Stdlib Require Import ZArith QArith List String Ascii Bool Lia.
From Stdlib Require Import Numbers.DecimalString.
From Stdlib Require Import DecimalPos DecimalZ.
Import ListNotations.

Open Scope string_scope.
Open Scope Z_scope.

(** ** Python built-ins used by the script *)

Module Py.

(** [s * n] on strings. *)
Fixpoint str_mul (s : string) (n : nat) : string :=
  match n with
  | O => ""
  | S n' => s ++ str_mul s n'
  end.

(** [repr] of an [int]: decimal digits, a leading minus sign when negative. *)
Definition int_repr (z : Z) : string := NilZero.string_of_int (Z.to_int z).

(** [int(x)] on a finite [float]: truncation toward zero. *)
Definition int_of_float (x : Q) : Z := Z.quot (Qnum x) (Zpos (Qden x)).

(** [sep.join(parts)]. *)
Definition join (sep : string) (parts : list string) : string :=
  String.concat sep parts.

End Py.

(** ** [datetime] and [timedelta]

    A naive [datetime] is the number of microseconds between
    1970-01-01T00:00:00 and the wall-clock reading, both taken on the local
    time line; a [timedelta] is a number of microseconds.  The system clock
    of the interpreter is a 64-bit count of nanoseconds, so a reading plus
    180 days stays far inside the years 1..9999 that [datetime] can hold
    and the range check of [datetime.__add__] is not modelled. *)

Module Datetime.

Definition datetime : Type := Z.
Definition timedelta : Type := Z.

Definition US_PER_SECOND : Z := 1000000.
Definition SECONDS_PER_DAY : Z := 86400.

(** [timedelta(days=d)]. *)
Definition timedelta_days (d : Z) : timedelta :=
  d * SECONDS_PER_DAY * US_PER_SECOND.

(** [dt + td]. *)
Definition add (dt : datetime) (td : timedelta) : datetime := dt + td.

(** Whole wall-clock seconds and the [microsecond] field of [dt]. *)
Definition wall_seconds (dt : datetime) : Z := dt / US_PER_SECOND.
Definition microsecond (dt : datetime) : Z := dt mod US_PER_SECOND.

(** [dt.timestamp()] for a naive [dt]: the local wall-clock second is
    converted to a POSIX second by the platform ([mktime]) and the
    microseconds are added back as a fraction. *)
Definition timestamp (mktime : Z -> Z) (dt : datetime) : Q :=
  (inject_Z (mktime (wall_seconds dt))
   + inject_Z (microsecond dt) / inject_Z US_PER_SECOND)%Q.

End Datetime.

(** ** [json.dumps(obj, indent=2)] for the objects the script builds *)

Module Json.

(** The values the script puts in its two dictionaries. *)
Inductive value : Type :=
| JStr (s : string)
| JInt (z : Z).

(** A [dict] literal with string keys, in insertion order. *)
Definition dict : Type := list (string * value).

Fixpoint lookup (k : string) (d : dict) : option value :=
  match d with
  | [] => None
  | (k', v) :: d' => if String.eqb k k' then Some v else lookup k d'
  end.

Definition dquote : ascii := "034"%char.

Definition hex_digit (n : N) : ascii :=
  match n with
  | 0%N => "0" | 1%N => "1" | 2%N => "2" | 3%N => "3" | 4%N => "4"
  | 5%N => "5" | 6%N => "6" | 7%N => "7" | 8%N => "8" | 9%N => "9"
  | 10%N => "a" | 11%N => "b" | 12%N => "c" | 13%N => "d" | 14%N => "e"
  | _ => "f"
  end%char.

(** One character of a string literal under [ensure_ascii=True]: the
    quote and the backslash are escaped, the printable ASCII characters
    stand for themselves, everything else becomes an escape. *)
Definition escape_char (c : ascii) : string :=
  let n := N_of_ascii c in
  if (n =? 34)%N then String "\" (String dquote "")
  else if (n =? 92)%N then "\\"
  else if (n =? 10)%N then "\n"
  else if (n =? 13)%N then "\r"
  else if (n =? 9)%N then "\t"
  else if (n =? 8)%N then "\b"
  else if (n =? 12)%N then "\f"
  else if ((32 <=? n) && (n <=? 126))%N then String c ""
  else "\u00" ++ String (hex_digit (n / 16)) (String (hex_digit (n mod 16)) "").

Fixpoint escape (s : string) : string :=
  match s with
  | "" => ""
  | String c s' => escape_char c ++ escape s'
  end.

(** [py_encode_basestring_ascii]. *)
Definition encode_str (s : string) : string :=
  String dquote (escape s ++ String dquote "").

Definition encode_value (v : value) : string :=
  match v with
  | JStr s => encode_str s
  | JInt z => Py.int_repr z
  end.

Definition encode_item (kv : string * value) : string :=
  encode_str (fst kv) ++ ": " ++ encode_value (snd kv).

(** [json.dumps(d, indent=n)] on a flat dictionary: one item per line,
    indented by [n] spaces, separated by [","]; the empty dictionary is
    rendered as two braces. *)
Definition dumps (indent : nat) (d : dict) : string :=
  match d with
  | [] => "{}"
  | _ =>
      let newline_indent := String "010" (Py.str_mul " " indent) in
      "{" ++ newline_indent
          ++ Py.join ("," ++ newline_indent) (map encode_item d)
          ++ String "010" "}"
  end.

End Json.

(** ** The world the script runs in and the effects it can have *)

(** What the interpreter and the platform hand to one run of the script. *)
Record World : Type := mkWorld {
  argv : list string;            (* sys.argv[1:] *)
  file : string;                 (* __file__ *)
  time_time : Q;                 (* time.time(), line 44 *)
  datetime_now : Datetime.datetime;  (* datetime.now(), line 45 *)
  mktime : Z -> Z                (* local wall-clock second to POSIX second *)
}.

(** What a run could act on.  [stdout] lists the chunks written to the
    standard output stream, the latest first; [console] is the text they
    make up. *)
Record Process : Type := mkProcess {
  stdout : list string;
  filesystem : list (string * string);
  opened_files : list string;
  sockets : list string;
  environ : list (string * string)
}.

Definition console (p : Process) : string :=
  String.concat "" (rev (stdout p)).

(** How a call ends: with a value or with an exception. *)
Inductive outcome (A : Type) : Type :=
| Returned (a : A)
| Raised (exn : string).
Arguments Returned {A} a.
Arguments Raised {A} exn.

Definition M (A : Type) : Type := World -> Process -> outcome A * Process.

Definition ret {A} (a : A) : M A := fun _ p => (Returned a, p).

Definition bind {A B} (m : M A) (f : A -> M B) : M B :=
  fun w p =>
    match m w p with
    | (Returned a, p') => f a w p'
    | (Raised e, p') => (Raised e, p')
    end.

Notation "x <- m ;; k" := (bind m (fun x => k))
  (at level 61, m at next level, right associativity).
Notation "m ;; k" := (bind m (fun _ => k))
  (at level 61, right associativity).

(** The text one [print] call writes: its positional arguments joined by
    a space, then a newline. *)
Definition line (args : list string) : string :=
  Py.join " " args ++ String "010" "".

(** [print] of its positional arguments, to a standard output stream that
    takes every text; [print_on], further down, is the call on a stream
    that can refuse one. *)
Definition print (args : list string) : M unit :=
  fun _ p =>
    (Returned tt,
     {| stdout := line args :: stdout p;
        filesystem := filesystem p;
        opened_files := opened_files p;
        sockets := sockets p;
        environ := environ p |}).

(** Line 44, [now = int(time.time())]: the value bound to [now], which the
    payload carries as [iat]. *)
Definition iat_of (w : World) : Z := Py.int_of_float (time_time w).

(** Line 45, [exp = int((datetime.now() + timedelta(days=180)).timestamp())]:
    the value bound to [exp]. *)
Definition exp_of (w : World) : Z :=
  Py.int_of_float
    (Datetime.timestamp (mktime w)
       (Datetime.add (datetime_now w) (Datetime.timedelta_days 180))).

Definition read_time : M Z := fun w p => (Returned (iat_of w), p).
Definition read_expiry : M Z := fun w p => (Returned (exp_of w), p).

(** [__file__]. *)
Definition dunder_file : M string := fun w p => (Returned (file w), p).

(** ** The script *)

Definition TEAM_ID : string := "5TBWU99J4Y".
Definition KEY_ID : string := "YACV7X3SX4".
Definition SERVICE_ID : string := "com.neal.envivenew.signin".
Definition KEY_FILE : string :=
  "/Users/nealahlstrom/Downloads/AuthKey_YACV7X3SX4.p8".

(** The dictionary of lines 37-40. *)
Definition header : Json.dict :=
  [ ("alg", Json.JStr "ES256");
    ("kid", Json.JStr KEY_ID) ].

(** The dictionary of lines 46-52. *)
Definition payload (now exp : Z) : Json.dict :=
  [ ("iss", Json.JStr TEAM_ID);
    ("iat", Json.JInt now);
    ("exp", Json.JInt exp);
    ("aud", Json.JStr "https://appleid.apple.com");
    ("sub", Json.JStr SERVICE_ID) ].

Definition main : M unit :=
  print [Py.str_mul "=" 60] ;;
  print ["Apple Sign In JWT Generator"] ;;
  print [Py.str_mul "=" 60] ;;
  print [] ;;
  print ["To generate your JWT token, you have two options:"] ;;
  print [] ;;
  print ["OPTION 1: Use jwt.io (Manual - 2 minutes)"] ;;
  print [Py.str_mul "-" 60] ;;
  print ["1. Go to: https://jwt.io"] ;;
  print ["2. Select algorithm: ES256"] ;;
  print ["3. Edit HEADER (left side, top box) - paste this:"] ;;
  print [] ;;
  print [Json.dumps 2 header] ;;
  print [] ;;
  print ["4. Edit PAYLOAD (left side, middle box) - paste this:"] ;;
  print [] ;;
  now <- read_time ;;
  exp <- read_expiry ;;
  print [Json.dumps 2 (payload now exp)] ;;
  print [] ;;
  print ["5. On the RIGHT side, look for 'Private Key' box"] ;;
  print ["   (You may need to scroll down)"] ;;
  print ["6. Paste your private key from:"] ;;
  print ["   " ++ KEY_FILE] ;;
  print [] ;;
  print ["7. Copy the long token from the top (starts with 'eyJ...')"] ;;
  print ["8. Paste it into Supabase 'Secret Key (for OAuth)' field"] ;;
  print [] ;;
  print [Py.str_mul "=" 60] ;;
  print [] ;;
  print ["OPTION 2: Install Python libraries and run this script"] ;;
  print [Py.str_mul "-" 60] ;;
  print ["Run these commands:"] ;;
  print ["  python3 -m pip install --user PyJWT cryptography"] ;;
  f <- dunder_file ;;
  print ["  python3"; f] ;;
  print [].

(** Lines 71-72, the guard that ends the module body: [main] is called when
    the module is run as the main program and is not called when it is
    imported.  The imports and the four assignments of lines 7-17, which
    run before the guard and print nothing, are not part of it. *)
Definition module_body (dunder_name : string) : M unit :=
  if String.eqb dunder_name "__main__" then main else ret tt.

(** Running the script: the interpreter executes the module body under the
    name ["__main__"]. *)
Definition run (w : World) (p : Process) : outcome unit * Process :=
  module_body "__main__" w p.

(** A process that has not written anything yet. *)
Definition fresh : Process :=
  {| stdout := []; filesystem := []; opened_files := [];
     sockets := []; environ := [] |}.

(** The chunks a run writes, the latest first. *)
Definition writes (w : World) : list string := stdout (snd (run w fresh)).

(** ** Text search *)

(** [contains hay needle]: [needle] occurs in [hay]. *)
Definition contains (hay needle : string) : Prop :=
  exists pre post, hay = pre ++ needle ++ post.

Definition nl : string := String "010" "".

(** The text of a JSON member with a string value, and with an integer
    value. *)
Definition quote : string := String Json.dquote "".
Definition member_str (k v : string) : string :=
  quote ++ k ++ quote ++ ": " ++ quote ++ v ++ quote.
Definition member_int (k : string) (z : Z) : string :=
  quote ++ k ++ quote ++ ": " ++ Py.int_repr z.

(** ** Worlds used as examples *)

Definition utc : Z -> Z := fun s => s.

(** The first read falls at 1699999999.9 s, the second at 1700000000.1 s,
    in a zone without offset. *)
Definition world_tick : World :=
  {| argv := []; file := "/opt/tools/generate_apple_jwt.py";
     time_time := 16999999999 # 10;
     datetime_now := 1700000000100000;
     mktime := utc |}.

(** Both reads fall in second 1700000000, in a zone without offset. *)
Definition world_calm : World :=
  {| argv := []; file := "/opt/tools/generate_apple_jwt.py";
     time_time := 17000000001 # 10;
     datetime_now := 1700000000300000;
     mktime := utc |}.


(** The wall clock is set back to the epoch between the two reads. *)
Definition world_reset : World :=
  {| argv := []; file := "/opt/tools/generate_apple_jwt.py";
     time_time := 1700000000 # 1;
     datetime_now := 500000;
     mktime := utc |}.

(** A zone with daylight saving time: wall-clock seconds from
    2024-03-10T02:00 up to 2024-11-03T02:00 lie four hours behind UTC, the
    others five. *)
Definition eastern_2024 : Z -> Z :=
  fun s =>
    if (1710036000 <=? s) && (s <? 1730599200) then s + 14400 else s + 18000.

(** Both reads fall in one second of 2023-11-14, at noon in that zone. *)
Definition world_dst : World :=
  {| argv := []; file := "/opt/tools/generate_apple_jwt.py";
     time_time := 169998120025 # 100;
     datetime_now := 1699963200250000;
     mktime := eastern_2024 |}.

(** The world [w] with another argument vector, another first clock
    reading, another second clock reading and zone. *)
Definition with_argv (args : list string) (w : World) : World :=
  {| argv := args; file := file w; time_time := time_time w;
     datetime_now := datetime_now w; mktime := mktime w |}.

Definition with_time_time (t : Q) (w : World) : World :=
  {| argv := argv w; file := file w; time_time := t;
     datetime_now := datetime_now w; mktime := mktime w |}.

Definition with_datetime_now (d : Datetime.datetime) (mk : Z -> Z)
    (w : World) : World :=
  {| argv := argv w; file := file w; time_time := time_time w;
     datetime_now := d; mktime := mk |}.


(** ** Reading the output *)

(** [int(s)] on the text of a decimal numeral. *)
Definition int_of_str (s : string) : option Z :=
  option_map Z.of_int (NilZero.int_of_string s).

(** [all_chars P s]: every character of [s] satisfies [P]. *)
Fixpoint all_chars (P : ascii -> bool) (s : string) : bool :=
  match s with
  | "" => true
  | String c s' => P c && all_chars P s'
  end.

(** Printable ASCII, from the space to the tilde. *)
Definition printable (c : ascii) : bool :=
  ((32 <=? N_of_ascii c) && (N_of_ascii c <=? 126))%N.

(** What a text terminal shows as it is: printable ASCII and the newline. *)
Definition text_char (c : ascii) : bool :=
  printable c || (N_of_ascii c =? 10)%N.

(** The characters of a decimal numeral: the digits and the minus sign. *)
Definition numeral_char (c : ascii) : bool :=
  ((48 <=? N_of_ascii c) && (N_of_ascii c <=? 57) || (N_of_ascii c =? 45))%N.

(** Printable ASCII that a JSON string literal carries unescaped. *)
Definition plain_char (c : ascii) : bool :=
  printable c && negb (N_of_ascii c =? 34)%N && negb (N_of_ascii c =? 92)%N.

(** The text of the payload around its two numerals. *)
Definition payload_head : string :=
  "{" ++ nl ++ "  " ++ member_str "iss" "5TBWU99J4Y" ++ "," ++ nl
      ++ "  " ++ quote ++ "iat" ++ quote ++ ": ".
Definition payload_mid : string :=
  "," ++ nl ++ "  " ++ quote ++ "exp" ++ quote ++ ": ".
Definition payload_tail : string :=
  "," ++ nl ++ "  " ++ member_str "aud" "https://appleid.apple.com"
      ++ "," ++ nl ++ "  " ++ member_str "sub" "com.neal.envivenew.signin"
      ++ nl ++ "}".

(** The clock stands before the epoch, also 180 days on: the reads fall at
    -20000000.5 s and -19999999.5 s. *)
Definition world_1969 : World :=
  {| argv := []; file := "/opt/tools/generate_apple_jwt.py";
     time_time := (-200000005) # 10;
     datetime_now := -19999999500000;
     mktime := utc |}.

(** A zone one hour east of UTC, the reads 0.9 s apart across a tick. *)
Definition world_east : World :=
  {| argv := []; file := "/opt/tools/generate_apple_jwt.py";
     time_time := 16999999995 # 10;
     datetime_now := 1700003600400000;
     mktime := fun s => s + -3600 |}.

(** ** The script on a stream that can fail

    [print] hands its texts to [sys.stdout], and a real stream can refuse
    a text: its encoding may lack a character (UnicodeEncodeError) or the
    device behind it may fail (OSError, BrokenPipeError); a buffered stream
    reports the failure of the device only when the interpreter flushes it
    at exit.  The script is embedded a second time, statement by statement,
    over such a stream, with a trace of what it did to the stream and to
    the clock. *)

(** What the script does that the platform can see. *)
Inductive event : Type :=
| Wrote (text : string)                    (* sys.stdout.write(text) *)
| Read_time_time (t : Q)                   (* time.time() returned t *)
| Read_datetime_now (d : Datetime.datetime).  (* datetime.now() returned d *)

(** The events of a run, the latest first. *)
Definition trace : Type := list event.

(** A stream: for the events so far and a text, the exception the write
    of the text raises, if any; for the events of the whole run, the
    exception the flush at exit raises, if any. *)
Record Stream : Type := mkStream {
  write_raises : trace -> string -> option string;
  flush_raises : trace -> option string
}.

Definition T (A : Type) : Type := World -> trace -> outcome A * trace.

Definition ret_t {A} (a : A) : T A := fun _ tr => (Returned a, tr).

Definition bind_t {A B} (m : T A) (f : A -> T B) : T B :=
  fun w tr =>
    match m w tr with
    | (Returned a, tr') => f a w tr'
    | (Raised e, tr') => (Raised e, tr')
    end.

Declare Scope sys_scope.
Delimit Scope sys_scope with sys.
Notation "x <- m ;; k" := (bind_t m (fun x => k))
  (at level 61, m at next level, right associativity) : sys_scope.
Notation "m ;; k" := (bind_t m (fun _ => k))
  (at level 61, right associativity) : sys_scope.

(** [sys.stdout.write(text)]. *)
Definition write_on (s : Stream) (text : string) : T unit :=
  fun _ tr =>
    match write_raises s tr text with
    | Some e => (Raised e, tr)
    | None => (Returned tt, Wrote text :: tr)
    end.

(** The texts one [print] call writes, in order: each argument, a space
    between two arguments, the newline at the end. *)
Fixpoint pieces (args : list string) : list string :=
  match args with
  | [] => [nl]
  | x :: rest =>
      match rest with
      | [] => [x; nl]
      | _ => x :: " " :: pieces rest
      end
  end.

Fixpoint write_all (s : Stream) (texts : list string) : T unit :=
  match texts with
  | [] => ret_t tt
  | x :: rest => bind_t (write_on s x) (fun _ => write_all s rest)
  end.

(** [print] of its positional arguments on the stream [s]: the first write
    that raises ends the call. *)
Definition print_on (s : Stream) (args : list string) : T unit :=
  write_all s (pieces args).

(** [time.time()], [datetime.now()], [dt.timestamp()] and [__file__]. *)
Definition time_time_call : T Q :=
  fun w tr => (Returned (time_time w), Read_time_time (time_time w) :: tr).

Definition datetime_now_call : T Datetime.datetime :=
  fun w tr =>
    (Returned (datetime_now w), Read_datetime_now (datetime_now w) :: tr).

Definition timestamp_call (dt : Datetime.datetime) : T Q :=
  fun w tr => (Returned (Datetime.timestamp (mktime w) dt), tr).

Definition dunder_file_call : T string := fun w tr => (Returned (file w), tr).

(** [main], lines 19-69, on the stream [s]. *)
Definition main_on (s : Stream) : T unit :=
  (print_on s [Py.str_mul "=" 60] ;;
   print_on s ["Apple Sign In JWT Generator"] ;;
   print_on s [Py.str_mul "=" 60] ;;
   print_on s [] ;;
   print_on s ["To generate your JWT token, you have two options:"] ;;
   print_on s [] ;;
   print_on s ["OPTION 1: Use jwt.io (Manual - 2 minutes)"] ;;
   print_on s [Py.str_mul "-" 60] ;;
   print_on s ["1. Go to: https://jwt.io"] ;;
   print_on s ["2. Select algorithm: ES256"] ;;
   print_on s ["3. Edit HEADER (left side, top box) - paste this:"] ;;
   print_on s [] ;;
   print_on s [Json.dumps 2 header] ;;
   print_on s [] ;;
   print_on s ["4. Edit PAYLOAD (left side, middle box) - paste this:"] ;;
   print_on s [] ;;
   t <- time_time_call ;;
   d <- datetime_now_call ;;
   ts <- timestamp_call (Datetime.add d (Datetime.timedelta_days 180)) ;;
   print_on s [Json.dumps 2
                 (payload (Py.int_of_float t) (Py.int_of_float ts))] ;;
   print_on s [] ;;
   print_on s ["5. On the RIGHT side, look for 'Private Key' box"] ;;
   print_on s ["   (You may need to scroll down)"] ;;
   print_on s ["6. Paste your private key from:"] ;;
   print_on s ["   " ++ KEY_FILE] ;;
   print_on s [] ;;
   print_on s ["7. Copy the long token from the top (starts with 'eyJ...')"] ;;
   print_on s ["8. Paste it into Supabase 'Secret Key (for OAuth)' field"] ;;
   print_on s [] ;;
   print_on s [Py.str_mul "=" 60] ;;
   print_on s [] ;;
   print_on s ["OPTION 2: Install Python libraries and run this script"] ;;
   print_on s [Py.str_mul "-" 60] ;;
   print_on s ["Run these commands:"] ;;
   print_on s ["  python3 -m pip install --user PyJWT cryptography"] ;;
   f <- dunder_file_call ;;
   print_on s ["  python3"; f] ;;
   print_on s [])%sys.

(** Running the script on the stream [s]: the module is run as the main
    program, so the guard of lines 71-72 calls [main]. *)
Definition run_on (s : Stream) (w : World) (tr : trace)
  : outcome unit * trace :=
  main_on s w tr.

(** The exit status of the interpreter: it flushes the stream when it
    finishes and exits with 120 when the flush fails; otherwise with 1 when
    an exception reached the top level and with 0 when the module body
    returned. *)
Definition exit_status (s : Stream) (r : outcome unit * trace) : Z :=
  match flush_raises s (snd r) with
  | Some _ => 120
  | None =>
      match fst r with
      | Returned _ => 0
      | Raised _ => 1
      end
  end.

(** The text the stream was given, in the order of the writes. *)
Fixpoint output (tr : trace) : string :=
  match tr with
  | [] => ""
  | Wrote x :: tr' => output tr' ++ x
  | _ :: tr' => output tr'
  end.

Definition is_write (e : event) : bool :=
  match e with
  | Wrote _ => true
  | _ => false
  end.

(** [follows m m']: a call of [m] raises, or does what [m'] does. *)
Definition follows {A} (m m' : T A) : Prop :=
  forall w tr, m w tr = m' w tr \/ exists e tr', m w tr = (Raised e, tr').

(** A stream that takes every text. *)
Definition steady : Stream :=
  {| write_raises := fun _ _ => None; flush_raises := fun _ => None |}.

(** A buffered stream on a full device: every write goes to the buffer and
    the flush at exit fails. *)
Definition full_buffered : Stream :=
  {| write_raises := fun _ _ => None;
     flush_raises := fun _ => Some "OSError" |}.

(** An unbuffered stream on a full device: every write fails. *)
Definition full_unbuffered : Stream :=
  {| write_raises := fun _ _ => Some "OSError";
     flush_raises := fun _ => None |}.

(** A stream whose encoding is ASCII. *)
Definition ascii_char (c : ascii) : bool := (N_of_ascii c <? 128)%N.

Definition ascii_stream : Stream :=
  {| write_raises :=
       fun _ text =>
         if all_chars ascii_char text then None else Some "UnicodeEncodeError";
     flush_raises := fun _ => None |}.

(** The script lies in a directory with an accented name. *)
Definition world_accent : World :=
  {| argv := [];
     file := "/home/ren" ++ String "233" "/generate_apple_jwt.py";
     time_time := 17000000001 # 10;
     datetime_now := 1700000000300000;
     mktime := utc |}.

(** The JSON string literal read back: the text after the opening quote is
    read up to the closing quote, which has to end it; a backslash starts
    one of the escapes of the encoder, and a character that the encoder
    would have escaped is refused. *)
Definition unescape_simple (e : ascii) : option ascii :=
  if Ascii.eqb e Json.dquote then Some Json.dquote
  else if Ascii.eqb e "\" then Some "\"%char
  else if Ascii.eqb e "n" then Some "010"%char
  else if Ascii.eqb e "r" then Some "013"%char
  else if Ascii.eqb e "t" then Some "009"%char
  else if Ascii.eqb e "b" then Some "008"%char
  else if Ascii.eqb e "f" then Some "012"%char
  else None.

Definition hex_value (c : ascii) : option N :=
  let n := N_of_ascii c in
  if ((48 <=? n) && (n <=? 57))%N then Some (n - 48)%N
  else if ((97 <=? n) && (n <=? 102))%N then Some (n - 87)%N
  else None.

Fixpoint decode_body (s : string) : option string :=
  match s with
  | "" => None
  | String c r =>
      if Ascii.eqb c Json.dquote then
        match r with
        | "" => Some ""
        | _ => None
        end
      else if Ascii.eqb c "\" then
        match r with
        | String "u" (String "0" (String "0" (String h (String l r')))) =>
            match hex_value h, hex_value l with
            | Some x, Some y =>
                option_map (String (ascii_of_N (16 * x + y))) (decode_body r')
            | _, _ => None
            end
        | String e r' =>
            match unescape_simple e with
            | Some a => option_map (String a) (decode_body r')
            | None => None
            end
        | "" => None
        end
      else if plain_char c then option_map (String c) (decode_body r)
      else None
  end.

Definition decode_str (s : string) : option string :=
  match s with
  | String c r => if Ascii.eqb c Json.dquote then decode_body r else None
  | "" => None
  end.

(** ** Tactics for runs *)

(** Unfolds the monad and the script, leaving the printed values folded. *)
Ltac run_step :=
  cbv beta iota zeta delta
    [run module_body main bind ret print read_time read_expiry dunder_file
     writes fresh fst snd stdout filesystem opened_files sockets environ
     String.eqb Ascii.eqb Bool.eqb app].

(** Finds a chunk in the list of chunks of a run. *)
Ltac find_chunk :=
  run_step; repeat (first [ left; reflexivity | right ]).

(** ** Lemmas on strings *)

Lemma append_assoc (a b c : string) : (a ++ b) ++ c = a ++ (b ++ c).
Proof.
  induction a as [|x a IH]; simpl; [reflexivity | now rewrite IH].
Qed.

Lemma append_empty_r (a : string) : a ++ "" = a.
Proof.
  induction a as [|x a IH]; simpl; [reflexivity | now rewrite IH].
Qed.

Lemma list_ascii_of_string_append (a b : string) :
  list_ascii_of_string (a ++ b)
  = (list_ascii_of_string a ++ list_ascii_of_string b)%list.
Proof.
  induction a as [|x a IH]; simpl; [reflexivity | now rewrite IH].
Qed.

Lemma list_ascii_of_string_inj (a b : string) :
  list_ascii_of_string a = list_ascii_of_string b -> a = b.
Proof.
  intros H.
  rewrite <- (string_of_list_ascii_of_string a),
          <- (string_of_list_ascii_of_string b).
  now rewrite H.
Qed.

Lemma append_cancel_l (a b c : string) : a ++ b = a ++ c -> b = c.
Proof.
  induction a as [|x a IH]; simpl; intros H; [exact H|].
  injection H as H. now apply IH.
Qed.

Lemma append_cancel_r (a b c : string) : a ++ c = b ++ c -> a = b.
Proof.
  intros H. apply list_ascii_of_string_inj.
  apply (f_equal list_ascii_of_string) in H.
  rewrite !list_ascii_of_string_append in H.
  now apply app_inv_tail in H.
Qed.

Lemma contains_refl (s : string) : contains s s.
Proof. exists "", "". simpl. now rewrite append_empty_r. Qed.

Lemma contains_trans (a b c : string) :
  contains a b -> contains b c -> contains a c.
Proof.
  intros (p1 & q1 & ->) (p2 & q2 & ->).
  exists (p1 ++ p2), (q2 ++ q1).
  now rewrite !append_assoc.
Qed.

Lemma contains_append_l (a b n : string) : contains a n -> contains (a ++ b) n.
Proof.
  intros (p1 & q1 & ->). exists p1, (q1 ++ b). now rewrite !append_assoc.
Qed.

Lemma contains_append_r (a b n : string) : contains b n -> contains (a ++ b) n.
Proof.
  intros (p1 & q1 & ->). exists (a ++ p1), q1. now rewrite !append_assoc.
Qed.

Lemma concat_empty_app (l1 l2 : list string) :
  String.concat "" (l1 ++ l2) = String.concat "" l1 ++ String.concat "" l2.
Proof.
  induction l1 as [|x l1 IH]; [reflexivity|].
  destruct l1 as [|y l1].
  - destruct l2; simpl; [now rewrite append_empty_r | reflexivity].
  - change (String.concat "" ((x :: y :: l1) ++ l2))
      with (x ++ "" ++ String.concat "" ((y :: l1) ++ l2)).
    change (String.concat "" (x :: y :: l1))
      with (x ++ "" ++ String.concat "" (y :: l1)).
    rewrite IH. simpl. now rewrite append_assoc.
Qed.

Lemma contains_concat (l : list string) (s : string) :
  In s l -> contains (String.concat "" l) s.
Proof.
  intros H. apply in_split in H as (l1 & l2 & ->).
  rewrite concat_empty_app.
  apply contains_append_r.
  change (s :: l2) with ([s] ++ l2)%list.
  rewrite concat_empty_app.
  apply contains_append_l. apply contains_refl.
Qed.

(** ** What a run does to the process *)

(** A run returns normally and leaves the process as it was, but for the
    chunks [writes w] added to the standard output stream. *)
Lemma run_spec (w : World) (p : Process) :
  run w p
  = (Returned tt,
     {| stdout := writes w ++ stdout p;
        filesystem := filesystem p;
        opened_files := opened_files p;
        sockets := sockets p;
        environ := environ p |}).
Proof. run_step. reflexivity. Qed.

Lemma stdout_run (w : World) (p : Process) :
  stdout (snd (run w p)) = (writes w ++ stdout p)%list.
Proof. rewrite run_spec. reflexivity. Qed.

Lemma console_run (w : World) (p : Process) :
  console (snd (run w p)) = console p ++ String.concat "" (rev (writes w)).
Proof.
  unfold console. rewrite stdout_run, rev_app_distr, concat_empty_app.
  reflexivity.
Qed.

Lemma contains_concat_rev (l : list string) (out chunk : string) :
  In chunk l -> contains (out ++ String.concat "" (rev l)) chunk.
Proof.
  intros H. apply contains_append_r, contains_concat.
  rewrite <- in_rev. exact H.
Qed.

Lemma console_contains_chunk (w : World) (p : Process) (chunk : string) :
  In chunk (writes w) -> contains (console (snd (run w p))) chunk.
Proof.
  intros H. rewrite console_run.
  exact (contains_concat_rev (writes w) (console p) chunk H).
Qed.

Lemma header_written (w : World) : In (line [Json.dumps 2 header]) (writes w).
Proof. find_chunk. Qed.

Lemma payload_written (w : World) :
  In (line [Json.dumps 2 (payload (iat_of w) (exp_of w))]) (writes w).
Proof. find_chunk. Qed.

Lemma key_file_written (w : World) : In (line ["   " ++ KEY_FILE]) (writes w).
Proof. find_chunk. Qed.


(** ** Lemmas on the two timestamps *)

Lemma wall_seconds_add_days (dt d : Z) :
  Datetime.wall_seconds (Datetime.add dt (Datetime.timedelta_days d))
  = Datetime.wall_seconds dt + d * 86400.
Proof.
  unfold Datetime.wall_seconds, Datetime.add, Datetime.timedelta_days,
    Datetime.SECONDS_PER_DAY, Datetime.US_PER_SECOND.
  now rewrite Z.div_add by lia.
Qed.

Lemma microsecond_add_days (dt d : Z) :
  Datetime.microsecond (Datetime.add dt (Datetime.timedelta_days d))
  = Datetime.microsecond dt.
Proof.
  unfold Datetime.microsecond, Datetime.add, Datetime.timedelta_days,
    Datetime.SECONDS_PER_DAY, Datetime.US_PER_SECOND.
  now rewrite Z.mod_add by lia.
Qed.

Lemma microsecond_range (dt : Z) : 0 <= Datetime.microsecond dt < 1000000.
Proof.
  unfold Datetime.microsecond, Datetime.US_PER_SECOND.
  apply Z.mod_pos_bound. lia.
Qed.

(** The integer part of a timestamp, spelled out on its numerator. *)
Lemma int_of_float_timestamp (mk : Z -> Z) (dt : Z) :
  Py.int_of_float (Datetime.timestamp mk dt)
  = Z.quot (mk (Datetime.wall_seconds dt) * 1000000 + Datetime.microsecond dt)
           1000000.
Proof.
  unfold Py.int_of_float, Datetime.timestamp, Datetime.US_PER_SECOND.
  generalize (mk (Datetime.wall_seconds dt)) (Datetime.microsecond dt).
  intros s m. unfold Qplus, Qdiv, Qmult, Qinv, inject_Z.
  cbn [Qnum Qden]. f_equal. cbn [Pos.mul]. lia.
Qed.

(** From the epoch on, the integer part of a timestamp is its POSIX
    second. *)
Lemma int_of_float_timestamp_nonneg (mk : Z -> Z) (dt : Z) :
  0 <= mk (Datetime.wall_seconds dt) ->
  Py.int_of_float (Datetime.timestamp mk dt) = mk (Datetime.wall_seconds dt).
Proof.
  intros H. rewrite int_of_float_timestamp.
  pose proof (microsecond_range dt) as Hm.
  rewrite Z.quot_div_nonneg by lia.
  rewrite Z.div_add_l by lia.
  rewrite Z.div_small by lia. lia.
Qed.

(** The integer part of a timestamp is never below its POSIX second. *)
Lemma int_of_float_timestamp_ge (mk : Z -> Z) (dt : Z) :
  mk (Datetime.wall_seconds dt) <= Py.int_of_float (Datetime.timestamp mk dt).
Proof.
  rewrite int_of_float_timestamp.
  pose proof (microsecond_range dt) as Hm.
  rewrite <- (Z.quot_mul (mk (Datetime.wall_seconds dt)) 1000000) at 1 by lia.
  apply Z.quot_le_mono; lia.
Qed.

Lemma exp_of_unfold (w : World) :
  exp_of w
  = Z.quot (mktime w (Datetime.wall_seconds (datetime_now w) + 15552000)
              * 1000000 + Datetime.microsecond (datetime_now w))
           1000000.
Proof.
  unfold exp_of. rewrite int_of_float_timestamp.
  rewrite wall_seconds_add_days, microsecond_add_days. reflexivity.
Qed.


(** [int] truncates toward zero. *)
Lemma int_of_float_toward_zero (x : Q) :
  ((0 <= x -> inject_Z (Py.int_of_float x) <= x
              /\ x < inject_Z (Py.int_of_float x + 1))
   /\ (x <= 0 -> inject_Z (Py.int_of_float x - 1) < x
                 /\ x <= inject_Z (Py.int_of_float x)))%Q.
Proof.
  destruct x as [a b]. unfold Py.int_of_float, Qle, Qlt, inject_Z.
  cbn [Qnum Qden].
  pose proof (Z.quot_rem a (Zpos b) ltac:(lia)) as E.
  split; intros H.
  - assert (Ha : 0 <= a) by lia.
    pose proof (Z.rem_bound_pos a (Zpos b) Ha ltac:(lia)). nia.
  - assert (Ha : a <= 0) by lia.
    pose proof (Z.rem_bound_pos_neg a (Zpos b) ltac:(lia) Ha). nia.
Qed.

Lemma iat_of_nonneg (w : World) : (0 <= time_time w)%Q -> 0 <= iat_of w.
Proof.
  unfold iat_of, Py.int_of_float, Qle. cbn [Qnum Qden]. intros H.
  apply Z.quot_pos; lia.
Qed.

(** ** The rendered dictionaries *)

Lemma line_single (x : string) : line [x] = x ++ nl.
Proof. reflexivity. Qed.

Lemma line_contains (x : string) : contains (line [x]) x.
Proof. rewrite line_single. apply contains_append_l, contains_refl. Qed.

(** The text of [json.dumps(header, indent=2)]. *)
Lemma dumps_header :
  Json.dumps 2 header
  = "{" ++ nl
    ++ "  " ++ member_str "alg" "ES256" ++ "," ++ nl
    ++ "  " ++ member_str "kid" "YACV7X3SX4" ++ nl
    ++ "}".
Proof. vm_compute. reflexivity. Qed.

(** The text of [json.dumps(payload, indent=2)]. *)
Lemma dumps_payload (now exp : Z) :
  Json.dumps 2 (payload now exp)
  = "{" ++ nl
    ++ "  " ++ member_str "iss" "5TBWU99J4Y" ++ "," ++ nl
    ++ "  " ++ member_int "iat" now ++ "," ++ nl
    ++ "  " ++ member_int "exp" exp ++ "," ++ nl
    ++ "  " ++ member_str "aud" "https://appleid.apple.com" ++ "," ++ nl
    ++ "  " ++ member_str "sub" "com.neal.envivenew.signin" ++ nl
    ++ "}".
Proof.
  cbv beta iota zeta delta
    [Json.dumps payload map Json.encode_item Json.encode_value fst snd
     Py.join String.concat member_int member_str].
  generalize (Py.int_repr now) (Py.int_repr exp). intros r1 r2.
  rewrite !append_assoc. vm_compute. reflexivity.
Qed.

(** Finds a member in the spelled-out text of a dictionary. *)
Ltac find_member :=
  repeat first
    [ apply contains_refl
    | apply contains_append_l; apply contains_refl
    | apply contains_append_r ].

Lemma payload_contains_iat (now exp : Z) :
  contains (Json.dumps 2 (payload now exp)) (member_int "iat" now).
Proof. rewrite dumps_payload. find_member. Qed.

Lemma payload_contains_exp (now exp : Z) :
  contains (Json.dumps 2 (payload now exp)) (member_int "exp" exp).
Proof. rewrite dumps_payload. find_member. Qed.

(** ** The shape of the output *)

(** The last two chunks of a run are the line that names [__file__] and an
    empty line; the chunks before them depend on the two timestamps only. *)
Lemma writes_shape (w : World) :
  writes w = line [] :: line ["  python3"; file w] :: tl (tl (writes w)).
Proof. run_step. reflexivity. Qed.

Lemma writes_tail_eq (w1 w2 : World) :
  iat_of w1 = iat_of w2 -> exp_of w1 = exp_of w2 ->
  tl (tl (writes w1)) = tl (tl (writes w2)).
Proof.
  intros Hi He. run_step. cbv beta iota delta [tl].
  rewrite Hi, He. reflexivity.
Qed.

Lemma writes_eq (w1 w2 : World) :
  iat_of w1 = iat_of w2 -> exp_of w1 = exp_of w2 -> file w1 = file w2 ->
  writes w1 = writes w2.
Proof.
  intros Hi He Hf.
  rewrite (writes_shape w1), (writes_shape w2).
  rewrite (writes_tail_eq w1 w2 Hi He), Hf. reflexivity.
Qed.





(** ** C1: the offset between [iat] and [exp] *)

(** C1, as stated, fails: with the first clock read at 1699999999.9 s and
    the second at 1700000000.1 s the payload carries [iat] 1699999999 and
    [exp] 1715552000, which are 15552001 seconds apart. *)
Lemma expiry_offset_across_tick :
  iat_of world_tick = 1699999999
  /\ exp_of world_tick = 1715552000
  /\ exp_of world_tick - iat_of world_tick <> 15552000
  /\ In (line [Json.dumps 2 (payload 1699999999 1715552000)])
        (writes world_tick).
Proof.
  assert (Hi : iat_of world_tick = 1699999999) by (vm_compute; reflexivity).
  assert (He : exp_of world_tick = 1715552000) by (vm_compute; reflexivity).
  split; [exact Hi|]. split; [exact He|]. split.
  - rewrite Hi, He. discriminate.
  - rewrite <- Hi, <- He. apply payload_written.
Qed.

(** Nor is the offset exact when both reads fall in one second but
    daylight saving time starts within the 180 days: the wall clock is
    moved by 180 days and stands for a POSIX second one hour short. *)
Example expiry_offset_across_dst :
  mktime world_dst (Datetime.wall_seconds (datetime_now world_dst))
  = iat_of world_dst
  /\ exp_of world_dst - iat_of world_dst = 15552000 - 3600.
Proof. split; vm_compute; reflexivity. Qed.

(** C1, amended: when the clock stands at or after the epoch, the second
    read falls in the POSIX second [T] of the first and the local offset is
    the same 180 days on, [exp - iat] is exactly 15552000 and the printed
    payload carries ["iat": T] and ["exp": T + 15552000]. *)
Theorem expiry_offset_same_second (w : World) (p : Process) :
  (0 <= time_time w)%Q ->
  mktime w (Datetime.wall_seconds (datetime_now w)) = iat_of w ->
  mktime w (Datetime.wall_seconds (datetime_now w) + 15552000)
  = mktime w (Datetime.wall_seconds (datetime_now w)) + 15552000 ->
  exp_of w - iat_of w = 15552000
  /\ In (line [Json.dumps 2 (payload (iat_of w) (iat_of w + 15552000))])
        (writes w)
  /\ contains (console (snd (run w p))) (member_int "iat" (iat_of w))
  /\ contains (console (snd (run w p)))
              (member_int "exp" (iat_of w + 15552000)).
Proof.
  intros Hpos Hsame Hzone.
  assert (He : exp_of w = iat_of w + 15552000).
  { unfold exp_of. rewrite int_of_float_timestamp_nonneg.
    - rewrite wall_seconds_add_days. change (180 * 86400) with 15552000.
      rewrite Hzone, Hsame. reflexivity.
    - rewrite wall_seconds_add_days. change (180 * 86400) with 15552000.
      rewrite Hzone, Hsame. pose proof (iat_of_nonneg w Hpos). lia. }
  pose proof (payload_written w) as Hw. rewrite He in Hw.
  split; [lia|]. split; [exact Hw|]. split.
  - apply contains_trans with (1 := console_contains_chunk w p _ Hw).
    apply contains_trans with (1 := line_contains _).
    apply payload_contains_iat.
  - apply contains_trans with (1 := console_contains_chunk w p _ Hw).
    apply contains_trans with (1 := line_contains _).
    apply payload_contains_exp.
Qed.

(** The amended C1 at [world_calm]. *)
Lemma expiry_offset_same_second_witness :
  exp_of world_calm - iat_of world_calm = 15552000
  /\ In (line [Json.dumps 2
                 (payload (iat_of world_calm) (iat_of world_calm + 15552000))])
        (writes world_calm)
  /\ contains (console (snd (run world_calm fresh)))
              (member_int "iat" (iat_of world_calm))
  /\ contains (console (snd (run world_calm fresh)))
              (member_int "exp" (iat_of world_calm + 15552000)).
Proof.
  apply (expiry_offset_same_second world_calm fresh).
  - vm_compute. discriminate.
  - vm_compute. reflexivity.
  - vm_compute. reflexivity.
Defined.

(** ** C2: [iat] before [exp] *)

(** C2, as stated, fails: when the wall clock is set back to the epoch
    between the two reads, the payload carries [iat] 1700000000 and
    [exp] 15552000. *)
Lemma iat_after_exp_on_reset :
  iat_of world_reset = 1700000000
  /\ exp_of world_reset = 15552000
  /\ ~ iat_of world_reset < exp_of world_reset
  /\ In (line [Json.dumps 2 (payload 1700000000 15552000)])
        (writes world_reset).
Proof.
  assert (Hi : iat_of world_reset = 1700000000) by (vm_compute; reflexivity).
  assert (He : exp_of world_reset = 15552000) by (vm_compute; reflexivity).
  split; [exact Hi|]. split; [exact He|]. split.
  - rewrite Hi, He. discriminate.
  - rewrite <- Hi, <- He. apply payload_written.
Qed.

(** C2, amended: when the second clock read is not earlier than the first
    and the local wall clock 180 days on stands for a later POSIX second,
    the printed payload has [iat < exp]. *)
Theorem iat_before_exp (w : World) :
  iat_of w <= mktime w (Datetime.wall_seconds (datetime_now w)) ->
  mktime w (Datetime.wall_seconds (datetime_now w))
  < mktime w (Datetime.wall_seconds (datetime_now w) + 15552000) ->
  iat_of w < exp_of w
  /\ In (line [Json.dumps 2 (payload (iat_of w) (exp_of w))]) (writes w).
Proof.
  intros Hmono Hlater. split; [|apply payload_written].
  unfold exp_of.
  pose proof (int_of_float_timestamp_ge (mktime w)
                (Datetime.add (datetime_now w) (Datetime.timedelta_days 180)))
    as Hge.
  rewrite wall_seconds_add_days in Hge.
  change (180 * 86400) with 15552000 in Hge. lia.
Qed.

(** The amended C2 at [world_calm]. *)
Lemma iat_before_exp_witness :
  iat_of world_calm < exp_of world_calm
  /\ In (line [Json.dumps 2 (payload (iat_of world_calm) (exp_of world_calm))])
        (writes world_calm).
Proof.
  apply (iat_before_exp world_calm).
  - vm_compute. discriminate.
  - vm_compute. reflexivity.
Defined.

(** ** C3: the printed header *)

(** C3: in every run the header dictionary maps ["alg"] to ["ES256"] and
    ["kid"] to ["YACV7X3SX4"], its rendering contains the two members as
    text, and the rendering is part of what the run prints. *)
Theorem header_rendered (w : World) (p : Process) :
  Json.lookup "alg" header = Some (Json.JStr "ES256")
  /\ Json.lookup "kid" header = Some (Json.JStr "YACV7X3SX4")
  /\ contains (Json.dumps 2 header) (member_str "alg" "ES256")
  /\ contains (Json.dumps 2 header) (member_str "kid" "YACV7X3SX4")
  /\ contains (console (snd (run w p))) (Json.dumps 2 header).
Proof.
  split; [reflexivity|]. split; [reflexivity|].
  split; [rewrite dumps_header; find_member|].
  split; [rewrite dumps_header; find_member|].
  apply contains_trans with (b := line [Json.dumps 2 header]).
  - exact (console_contains_chunk w p _ (header_written w)).
  - apply line_contains.
Qed.

(** ** C4: the printed payload *)

(** C4: in every run the payload dictionary maps ["iss"], ["aud"] and
    ["sub"] to the fixed issuer, audience and subject, its rendering
    contains the three members as text, and the rendering is part of what
    the run prints. *)
Theorem payload_rendered (w : World) (p : Process) :
  Json.lookup "iss" (payload (iat_of w) (exp_of w))
  = Some (Json.JStr "5TBWU99J4Y")
  /\ Json.lookup "aud" (payload (iat_of w) (exp_of w))
     = Some (Json.JStr "https://appleid.apple.com")
  /\ Json.lookup "sub" (payload (iat_of w) (exp_of w))
     = Some (Json.JStr "com.neal.envivenew.signin")
  /\ contains (Json.dumps 2 (payload (iat_of w) (exp_of w)))
              (member_str "iss" "5TBWU99J4Y")
  /\ contains (Json.dumps 2 (payload (iat_of w) (exp_of w)))
              (member_str "aud" "https://appleid.apple.com")
  /\ contains (Json.dumps 2 (payload (iat_of w) (exp_of w)))
              (member_str "sub" "com.neal.envivenew.signin")
  /\ contains (console (snd (run w p)))
              (Json.dumps 2 (payload (iat_of w) (exp_of w))).
Proof.
  generalize (payload_written w).
  generalize (iat_of w) (exp_of w). intros now exp Hw.
  split; [reflexivity|]. split; [reflexivity|]. split; [reflexivity|].
  split; [rewrite dumps_payload; find_member|].
  split; [rewrite dumps_payload; find_member|].
  split; [rewrite dumps_payload; find_member|].
  apply contains_trans with (b := line [Json.dumps 2 (payload now exp)]).
  - exact (console_contains_chunk w p _ Hw).
  - apply line_contains.
Qed.

(** ** C5: what the output depends on *)




(** ** C6: the argument vector *)

(** C6: a run with any argument vector ends as the run without arguments
    does and prints the same text. *)
Theorem argv_ignored (w : World) (args : list string) (p : Process) :
  run (with_argv args w) p = run (with_argv [] w) p
  /\ console (snd (run (with_argv args w) p))
     = console (snd (run (with_argv [] w) p)).
Proof.
  assert (Hw : writes (with_argv args w) = writes (with_argv [] w)).
  { apply writes_eq; reflexivity. }
  split.
  - rewrite !run_spec, Hw. reflexivity.
  - rewrite !console_run, Hw. reflexivity.
Qed.

(** ** C8: what a run touches *)

(** C8: a run leaves the file system, the opened files, the sockets and the
    environment as they were and only adds to the standard output stream;
    the path of the key file is printed, and no file is opened. *)
Theorem only_stdout_written (w : World) (p : Process) :
  filesystem (snd (run w p)) = filesystem p
  /\ opened_files (snd (run w p)) = opened_files p
  /\ sockets (snd (run w p)) = sockets p
  /\ environ (snd (run w p)) = environ p
  /\ stdout (snd (run w p)) = (writes w ++ stdout p)%list
  /\ contains (console (snd (run w p))) KEY_FILE
  /\ (In KEY_FILE (opened_files (snd (run w p)))
      <-> In KEY_FILE (opened_files p)).
Proof.
  split; [rewrite run_spec; reflexivity|].
  split; [rewrite run_spec; reflexivity|].
  split; [rewrite run_spec; reflexivity|].
  split; [rewrite run_spec; reflexivity|].
  split; [apply stdout_run|].
  split.
  - apply contains_trans with (b := line ["   " ++ KEY_FILE]).
    + exact (console_contains_chunk w p _ (key_file_written w)).
    + rewrite line_single.
      apply contains_append_l, contains_append_r, contains_refl.
  - rewrite run_spec. reflexivity.
Qed.

(** ** C10: the script path in the output *)



(** ** Further properties: the expiry timestamp *)

(** X2: from the epoch on, [exp] is the POSIX second of the local wall
    clock 180 days after the second read; the microseconds of the read do
    not show in it. *)
Theorem exp_is_posix_second (w : World) :
  0 <= mktime w (Datetime.wall_seconds (datetime_now w) + 15552000) ->
  exp_of w = mktime w (Datetime.wall_seconds (datetime_now w) + 15552000).
Proof.
  intros H. unfold exp_of. rewrite int_of_float_timestamp_nonneg.
  - rewrite wall_seconds_add_days. reflexivity.
  - rewrite wall_seconds_add_days. exact H.
Qed.

(** X2 at [world_calm]. *)
Lemma exp_is_posix_second_witness :
  exp_of world_calm
  = mktime world_calm
      (Datetime.wall_seconds (datetime_now world_calm) + 15552000).
Proof.
  apply (exp_is_posix_second world_calm). vm_compute. discriminate.
Defined.

(** X3: before the epoch [int] rounds up: when the wall clock 180 days on
    stands for a negative POSIX second and the read has a microsecond part,
    [exp] is that second plus one. *)
Theorem exp_before_epoch (w : World) :
  mktime w (Datetime.wall_seconds (datetime_now w) + 15552000) < 0 ->
  0 < Datetime.microsecond (datetime_now w) ->
  exp_of w
  = mktime w (Datetime.wall_seconds (datetime_now w) + 15552000) + 1.
Proof.
  intros Hneg Hus. rewrite exp_of_unfold.
  pose proof (microsecond_range (datetime_now w)) as Hr.
  set (m := mktime w (Datetime.wall_seconds (datetime_now w) + 15552000)) in *.
  set (us := Datetime.microsecond (datetime_now w)) in *.
  replace (m * 1000000 + us) with (- ((- m - 1) * 1000000 + (1000000 - us)))
    by lia.
  rewrite Z.quot_opp_l by lia.
  rewrite Z.quot_div_nonneg by lia.
  rewrite Z.div_add_l by lia.
  rewrite Z.div_small by lia. lia.
Qed.

(** X3 at [world_1969]. *)
Lemma exp_before_epoch_witness :
  exp_of world_1969
  = mktime world_1969
      (Datetime.wall_seconds (datetime_now world_1969) + 15552000) + 1.
Proof.
  apply (exp_before_epoch world_1969).
  - vm_compute. reflexivity.
  - vm_compute. reflexivity.
Defined.

(** X4: in a zone with a fixed offset, from the epoch on, the distance
    between [iat] and [exp] is 180 days plus the whole seconds between the
    two reads: with reads at most [d] seconds apart it lies between
    15552000 and 15552000 + [d]. *)
Theorem expiry_offset_fixed_zone (w : World) (off d : Z) :
  (forall s, mktime w s = s + off) ->
  0 <= Datetime.wall_seconds (datetime_now w) + 15552000 + off ->
  iat_of w <= mktime w (Datetime.wall_seconds (datetime_now w)) ->
  mktime w (Datetime.wall_seconds (datetime_now w)) <= iat_of w + d ->
  exp_of w - iat_of w
  = 15552000 + (mktime w (Datetime.wall_seconds (datetime_now w)) - iat_of w)
  /\ 15552000 <= exp_of w - iat_of w <= 15552000 + d.
Proof.
  intros Hzone Hpos Hlo Hhi.
  assert (He : exp_of w
               = mktime w (Datetime.wall_seconds (datetime_now w) + 15552000)).
  { unfold exp_of. rewrite int_of_float_timestamp_nonneg.
    - rewrite wall_seconds_add_days. reflexivity.
    - rewrite wall_seconds_add_days, Hzone.
      change (180 * 86400) with 15552000. lia. }
  rewrite He. rewrite !Hzone in *. lia.
Qed.

(** X4 at [world_east], with reads in two successive seconds. *)
Lemma expiry_offset_fixed_zone_witness :
  exp_of world_east - iat_of world_east
  = 15552000
    + (mktime world_east (Datetime.wall_seconds (datetime_now world_east))
       - iat_of world_east)
  /\ 15552000 <= exp_of world_east - iat_of world_east <= 15552000 + 1.
Proof.
  apply (expiry_offset_fixed_zone world_east (-3600) 1).
  - intros s. reflexivity.
  - vm_compute. discriminate.
  - vm_compute. discriminate.
  - vm_compute. discriminate.
Defined.

(** ** Further properties: the printed numerals *)

Lemma all_chars_append (P : ascii -> bool) (a b : string) :
  all_chars P (a ++ b) = all_chars P a && all_chars P b.
Proof.
  induction a as [|c a IH]; simpl; [reflexivity|].
  rewrite IH. apply andb_assoc.
Qed.

Lemma all_chars_impl (P Q : ascii -> bool) (s : string) :
  (forall c, P c = true -> Q c = true) ->
  all_chars P s = true -> all_chars Q s = true.
Proof.
  intros HPQ. induction s as [|c s IH]; simpl; [reflexivity|].
  rewrite !andb_true_iff. intros [Hc Hs]. split; [apply HPQ, Hc | apply IH, Hs].
Qed.

Lemma numeral_char_text (c : ascii) :
  numeral_char c = true -> text_char c = true.
Proof.
  unfold numeral_char, text_char, printable.
  rewrite !orb_true_iff, !andb_true_iff, !N.leb_le, !N.eqb_eq. lia.
Qed.

Lemma string_of_uint_numeral (d : Decimal.uint) :
  all_chars numeral_char (NilEmpty.string_of_uint d) = true.
Proof. induction d; simpl; [reflexivity | exact IHd ..]. Qed.

Lemma int_repr_numeral (z : Z) : all_chars numeral_char (Py.int_repr z) = true.
Proof.
  unfold Py.int_repr, NilZero.string_of_int, NilZero.string_of_uint.
  destruct (Z.to_int z) as [d|d]; destruct d; try reflexivity;
    simpl; apply string_of_uint_numeral.
Qed.

Lemma int_repr_text (z : Z) : all_chars text_char (Py.int_repr z) = true.
Proof.
  apply all_chars_impl with (1 := numeral_char_text), int_repr_numeral.
Qed.

Lemma to_int_nonnil (z : Z) :
  Z.to_int z <> Decimal.Pos Decimal.Nil /\ Z.to_int z <> Decimal.Neg Decimal.Nil.
Proof.
  destruct z as [|q|q]; simpl; split; try discriminate;
    intros [= H]; exact (DecimalPos.Unsigned.to_uint_nonnil q H).
Qed.

(** X5: the numeral printed for an integer reads back as that integer, so
    two integers with the same numeral are equal. *)
Theorem int_repr_round_trip (z z' : Z) :
  int_of_str (Py.int_repr z) = Some z
  /\ (Py.int_repr z = Py.int_repr z' -> z = z').
Proof.
  assert (R : forall x, int_of_str (Py.int_repr x) = Some x).
  { intros x. unfold int_of_str, Py.int_repr.
    destruct (to_int_nonnil x) as [Hp Hn].
    rewrite NilZero.isi by assumption.
    simpl. now rewrite DecimalZ.of_to. }
  split; [apply R|].
  intros H. pose proof (R z) as Rz. rewrite H, R in Rz. now injection Rz.
Qed.

(** X5 at two spellings of one integer. *)
Lemma int_repr_round_trip_witness :
  int_of_str (Py.int_repr 1715552000) = Some 1715552000
  /\ (Py.int_repr 1715552000 = Py.int_repr (1700000000 + 15552000) ->
      1715552000 = 1700000000 + 15552000).
Proof. apply (int_repr_round_trip 1715552000 (1700000000 + 15552000)). Defined.

(** The payload is its three fixed parts around the two numerals. *)
Lemma dumps_payload_parts (now exp : Z) :
  Json.dumps 2 (payload now exp)
  = payload_head ++ Py.int_repr now ++ payload_mid
                 ++ Py.int_repr exp ++ payload_tail.
Proof.
  rewrite dumps_payload. unfold member_int, payload_head, payload_mid.
  generalize (Py.int_repr now) (Py.int_repr exp). intros r1 r2.
  rewrite !append_assoc. reflexivity.
Qed.

(** Two numerals followed by a comma start the same text only when they
    are the same numeral. *)
Lemma numeral_before_comma (a b x y : string) :
  all_chars numeral_char a = true -> all_chars numeral_char b = true ->
  a ++ String "," x = b ++ String "," y -> a = b /\ x = y.
Proof.
  revert b. induction a as [|c a IH]; intros [|c' b] Ha Hb H; simpl in *.
  - injection H as H. now split.
  - injection H as Hc _. subst c'. discriminate Hb.
  - injection H as Hc _. subst c. discriminate Ha.
  - injection H as Hc H. subst c'.
    apply andb_true_iff in Ha as [_ Ha]. apply andb_true_iff in Hb as [_ Hb].
    destruct (IH b Ha Hb H) as [-> ->]. now split.
Qed.

Lemma payload_mid_comma (x : string) :
  payload_mid ++ x
  = String "," ((nl ++ "  " ++ quote ++ "exp" ++ quote ++ ": ") ++ x).
Proof. reflexivity. Qed.

(** X6: the printed payload tells both timestamps: two payloads with the
    same text carry the same [iat] and the same [exp]. *)
Theorem payload_text_tells_timestamps (now exp now' exp' : Z) :
  Json.dumps 2 (payload now exp) = Json.dumps 2 (payload now' exp') ->
  now = now' /\ exp = exp'.
Proof.
  rewrite !dumps_payload_parts. intros H.
  apply append_cancel_l in H.
  rewrite !payload_mid_comma in H.
  apply numeral_before_comma in H as [Hn H]; try apply int_repr_numeral.
  apply append_cancel_l, append_cancel_r in H. rename H into He.
  assert (R : forall x, int_of_str (Py.int_repr x) = Some x).
  { intros x. unfold int_of_str, Py.int_repr.
    destruct (to_int_nonnil x) as [Hp Hq].
    rewrite NilZero.isi by assumption.
    simpl. now rewrite DecimalZ.of_to. }
  split.
  - pose proof (R now) as Rn. rewrite Hn, R in Rn. now injection Rn.
  - pose proof (R exp) as Re. rewrite He, R in Re. now injection Re.
Qed.

(** X6 at the payload of [world_calm]. *)
Lemma payload_text_tells_timestamps_witness :
  1700000000 = 17000 * 100000 /\ 1715552000 = 1700000000 + 15552000.
Proof.
  apply (payload_text_tells_timestamps
           1700000000 1715552000 (17000 * 100000) (1700000000 + 15552000)).
  reflexivity.
Defined.

(** ** Further properties: the JSON text *)

Lemma escape_char_printable (c : ascii) :
  all_chars printable (Json.escape_char c) = true.
Proof. destruct c as [[] [] [] [] [] [] [] []]; reflexivity. Qed.

Lemma escape_printable (s : string) :
  all_chars printable (Json.escape s) = true.
Proof.
  induction s as [|c s IH]; simpl; [reflexivity|].
  now rewrite all_chars_append, escape_char_printable, IH.
Qed.

Lemma decode_escape_char (c : ascii) (rest : string) :
  decode_body (Json.escape_char c ++ rest)
  = option_map (String c) (decode_body rest).
Proof. destruct c as [[] [] [] [] [] [] [] []]; reflexivity. Qed.

Lemma decode_escape (s : string) :
  decode_body (Json.escape s ++ String Json.dquote "") = Some s.
Proof.
  induction s as [|c s IH]; [reflexivity|].
  cbn [Json.escape]. rewrite append_assoc, decode_escape_char, IH.
  reflexivity.
Qed.

(** X7: whatever the string, its JSON literal is made of printable ASCII
    only, and reading the literal back gives the string: the quote, the
    backslash, the control characters and the bytes above 126 are written
    as escapes that stand for them. *)
Theorem encode_str_printable (s : string) :
  all_chars printable (Json.encode_str s) = true
  /\ decode_str (Json.encode_str s) = Some s.
Proof.
  split.
  - unfold Json.encode_str. simpl.
    now rewrite all_chars_append, escape_printable.
  - unfold Json.encode_str, decode_str.
    rewrite Ascii.eqb_refl. apply decode_escape.
Qed.

Lemma escape_char_plain (c : ascii) :
  plain_char c = true -> Json.escape_char c = String c "".
Proof. destruct c as [[] [] [] [] [] [] [] []]; try discriminate; reflexivity. Qed.

(** X8: a string of printable ASCII without quote and backslash is
    rendered as it is, between two quotes. *)
Theorem encode_str_plain (s : string) :
  all_chars plain_char s = true ->
  Json.encode_str s = quote ++ s ++ quote.
Proof.
  intros H. unfold Json.encode_str, quote. simpl. f_equal.
  induction s as [|c s IH]; simpl in *; [reflexivity|].
  apply andb_true_iff in H as [Hc Hs].
  rewrite (escape_char_plain c Hc). simpl. f_equal. apply IH, Hs.
Qed.

(** X8 at the subject of the payload. *)
Lemma encode_str_plain_witness :
  Json.encode_str SERVICE_ID = quote ++ SERVICE_ID ++ quote.
Proof. apply (encode_str_plain SERVICE_ID). reflexivity. Defined.

Lemma contains_join (sep : string) (l : list string) (x : string) :
  In x l -> contains (Py.join sep l) x.
Proof.
  unfold Py.join. induction l as [|y l IH]; intros H; [destruct H|].
  destruct l as [|z l].
  - destruct H as [->|[]]. apply contains_refl.
  - change (String.concat sep (y :: z :: l))
      with (y ++ sep ++ String.concat sep (z :: l)).
    destruct H as [->|H].
    + apply contains_append_l, contains_refl.
    + apply contains_append_r, contains_append_r, IH, H.
Qed.

(** X9: every item of a dictionary shows in its rendering, as the literal
    of its key, a colon, a space and the text of its value, whatever the
    indentation. *)
Theorem dumps_shows_every_item (indent : nat) (d : Json.dict)
    (k : string) (v : Json.value) :
  In (k, v) d ->
  contains (Json.dumps indent d)
           (Json.encode_str k ++ ": " ++ Json.encode_value v).
Proof.
  intros H. destruct d as [|kv d]; [destruct H|].
  unfold Json.dumps.
  apply contains_append_r, contains_append_r, contains_append_l.
  apply contains_join.
  change (Json.encode_str k ++ ": " ++ Json.encode_value v)
    with (Json.encode_item (k, v)).
  apply in_map, H.
Qed.

(** X9 at the expiry of a payload. *)
Lemma dumps_shows_every_item_witness :
  contains (Json.dumps 2 (payload 1700000000 1715552000))
           (Json.encode_str "exp" ++ ": "
              ++ Json.encode_value (Json.JInt 1715552000)).
Proof.
  apply (dumps_shows_every_item 2 (payload 1700000000 1715552000)
           "exp" (Json.JInt 1715552000)).
  right. right. left. reflexivity.
Defined.

(** ** Further properties: the characters of the output *)

Lemma concat_empty_cons (x : string) (l : list string) :
  String.concat "" (x :: l) = x ++ String.concat "" l.
Proof.
  destruct l; simpl; [now rewrite append_empty_r | reflexivity].
Qed.

Lemma all_chars_concat (P : ascii -> bool) (l : list string) :
  Forall (fun x => all_chars P x = true) l ->
  all_chars P (String.concat "" l) = true.
Proof.
  induction 1 as [|x l Hx _ IH]; [reflexivity|].
  now rewrite concat_empty_cons, all_chars_append, Hx, IH.
Qed.

Lemma payload_line_text (now exp : Z) :
  all_chars text_char (line [Json.dumps 2 (payload now exp)]) = true.
Proof.
  rewrite line_single, dumps_payload_parts, !all_chars_append.
  rewrite !int_repr_text. reflexivity.
Qed.

Lemma file_line_text (f : string) :
  all_chars text_char f = true ->
  all_chars text_char (line ["  python3"; f]) = true.
Proof.
  intros Hf. change (line ["  python3"; f]) with ("  python3 " ++ f ++ nl).
  rewrite !all_chars_append, Hf. reflexivity.
Qed.

(** Settles one chunk of a run: the payload, the line of [__file__], or a
    fixed text. *)
Ltac chunk_text Hf :=
  lazymatch goal with
  | |- context [payload] => apply payload_line_text
  | |- context [file] => apply file_line_text; exact Hf
  | |- _ => vm_compute; reflexivity
  end.

Lemma writes_text (w : World) :
  all_chars text_char (file w) = true ->
  Forall (fun x => all_chars text_char x = true) (writes w).
Proof.
  intros Hf. run_step. generalize (iat_of w) (exp_of w). intros now exp.
  repeat (apply Forall_cons; [chunk_text Hf|]). apply Forall_nil.
Qed.

(** X10: when [__file__] is made of printable ASCII, a run adds nothing
    but printable ASCII and newlines to the console: whatever the clock
    reads, no other character is printed. *)
Theorem console_stays_text (w : World) (p : Process) :
  all_chars text_char (file w) = true ->
  all_chars text_char (console p) = true ->
  all_chars text_char (console (snd (run w p))) = true.
Proof.
  intros Hf Hp. rewrite console_run, all_chars_append, Hp.
  apply all_chars_concat, Forall_rev, writes_text, Hf.
Qed.

(** X10 at [world_calm]. *)
Lemma console_stays_text_witness :
  all_chars text_char (console (snd (run world_calm fresh))) = true.
Proof.
  apply (console_stays_text world_calm fresh).
  - vm_compute. reflexivity.
  - vm_compute. reflexivity.
Defined.

(** ** The script on a stream that can fail: what a run does *)

Lemma all_chars_true (x : string) : all_chars (fun _ => true) x = true.
Proof. induction x as [|c x IH]; [reflexivity | exact IH]. Qed.

Lemma all_chars_concat_inv (P : ascii -> bool) (l : list string) :
  all_chars P (String.concat "" l) = true ->
  Forall (fun x => all_chars P x = true) l.
Proof.
  induction l as [|x l IH]; intros H; [constructor|].
  rewrite concat_empty_cons, all_chars_append in H.
  apply andb_true_iff in H as [Hx Hl].
  constructor; [exact Hx | apply IH, Hl].
Qed.

(** The texts of one [print] call make up its line. *)
Lemma concat_pieces (args : list string) :
  String.concat "" (pieces args) = line args.
Proof.
  induction args as [|x rest IH]; [reflexivity|].
  destruct rest as [|y rest].
  - unfold line, Py.join. simpl. reflexivity.
  - change (pieces (x :: y :: rest)) with (x :: " " :: pieces (y :: rest)).
    rewrite !concat_empty_cons, IH.
    unfold line, Py.join.
    change (String.concat " " (x :: y :: rest))
      with (x ++ " " ++ String.concat " " (y :: rest)).
    now rewrite !append_assoc.
Qed.

(** A stream that takes the texts of a call takes the call. *)
Lemma write_all_ok (s : Stream) (enc : ascii -> bool) :
  (forall tr text, all_chars enc text = true -> write_raises s tr text = None) ->
  forall texts w tr,
    Forall (fun x => all_chars enc x = true) texts ->
    write_all s texts w tr = (Returned tt, (rev (map Wrote texts) ++ tr)%list).
Proof.
  intros Htakes texts w. induction texts as [|x rest IH]; intros tr H.
  - reflexivity.
  - inversion H as [|? ? Hx Hrest]; subst.
    cbn [write_all]. unfold bind_t, write_on at 1.
    rewrite (Htakes tr x Hx). rewrite (IH _ Hrest).
    cbn [map rev]. now rewrite <- app_assoc.
Qed.

Lemma bind_print_on_ok (s : Stream) (enc : ascii -> bool) :
  (forall tr text, all_chars enc text = true -> write_raises s tr text = None) ->
  forall (A : Type) (args : list string) (k : unit -> T A) w tr,
    all_chars enc (line args) = true ->
    bind_t (print_on s args) k w tr
    = k tt w (rev (map Wrote (pieces args)) ++ tr)%list.
Proof.
  intros Htakes A args k w tr H. unfold bind_t, print_on.
  rewrite (write_all_ok s enc Htakes); [reflexivity|].
  apply all_chars_concat_inv. now rewrite concat_pieces.
Qed.

Lemma print_on_ok (s : Stream) (enc : ascii -> bool) :
  (forall tr text, all_chars enc text = true -> write_raises s tr text = None) ->
  forall (args : list string) w tr,
    all_chars enc (line args) = true ->
    print_on s args w tr
    = (Returned tt, (rev (map Wrote (pieces args)) ++ tr)%list).
Proof.
  intros Htakes args w tr H. unfold print_on.
  apply (write_all_ok s enc Htakes).
  apply all_chars_concat_inv. now rewrite concat_pieces.
Qed.

Lemma steady_takes (tr : trace) (text : string) :
  all_chars (fun _ => true) text = true -> write_raises steady tr text = None.
Proof. reflexivity. Qed.

Lemma bind_time_time (A : Type) (k : Q -> T A) w tr :
  bind_t time_time_call k w tr
  = k (time_time w) w (Read_time_time (time_time w) :: tr).
Proof. reflexivity. Qed.

Lemma bind_datetime_now (A : Type) (k : Datetime.datetime -> T A) w tr :
  bind_t datetime_now_call k w tr
  = k (datetime_now w) w (Read_datetime_now (datetime_now w) :: tr).
Proof. reflexivity. Qed.

Lemma bind_timestamp (A : Type) (dt : Datetime.datetime) (k : Q -> T A) w tr :
  bind_t (timestamp_call dt) k w tr
  = k (Datetime.timestamp (mktime w) dt) w tr.
Proof. reflexivity. Qed.

Lemma bind_dunder_file (A : Type) (k : string -> T A) w tr :
  bind_t dunder_file_call k w tr = k (file w) w tr.
Proof. reflexivity. Qed.

Lemma text_line_enc (enc : ascii -> bool) (x : string) :
  (forall c, text_char c = true -> enc c = true) ->
  all_chars text_char x = true -> all_chars enc x = true.
Proof. intros H. now apply all_chars_impl. Qed.

Lemma file_line_enc (enc : ascii -> bool) (f : string) :
  (forall c, text_char c = true -> enc c = true) ->
  all_chars enc f = true ->
  all_chars enc (line ["  python3"; f]) = true.
Proof.
  intros H Hf. change (line ["  python3"; f]) with ("  python3 " ++ f ++ nl).
  rewrite !all_chars_append, Hf.
  rewrite (text_line_enc enc "  python3 " H) by reflexivity.
  rewrite (text_line_enc enc nl H) by reflexivity. reflexivity.
Qed.

(** Settles that the stream takes one line of the script. *)
Ltac line_enc Htext Hfile :=
  lazymatch goal with
  | |- context [payload] => apply (text_line_enc _ _ Htext), payload_line_text
  | |- context [file] => apply (file_line_enc _ _ Htext Hfile)
  | |- _ => apply (text_line_enc _ _ Htext); vm_compute; reflexivity
  end.

(** On a stream that takes printable ASCII, the newline and the characters
    of [__file__], the script does what it does on [steady]. *)
Lemma main_on_steady (s : Stream) (enc : ascii -> bool) (w : World) (tr : trace) :
  (forall c, text_char c = true -> enc c = true) ->
  all_chars enc (file w) = true ->
  (forall tr text, all_chars enc text = true -> write_raises s tr text = None) ->
  main_on s w tr = main_on steady w tr.
Proof.
  intros Htext Hfile Htakes. unfold main_on.
  repeat first
    [ rewrite (bind_print_on_ok s enc Htakes) by line_enc Htext Hfile
    | rewrite (bind_print_on_ok steady _ steady_takes) by apply all_chars_true
    | rewrite bind_time_time | rewrite bind_datetime_now
    | rewrite bind_timestamp | rewrite bind_dunder_file
    | progress cbv beta ].
  rewrite (print_on_ok s enc Htakes) by line_enc Htext Hfile.
  rewrite (print_on_ok steady _ steady_takes) by apply all_chars_true.
  reflexivity.
Qed.

Lemma follows_refl {A} (m : T A) : follows m m.
Proof. intros w tr. now left. Qed.

Lemma follows_bind {A B} (m m' : T A) (k k' : A -> T B) :
  follows m m' -> (forall a, follows (k a) (k' a)) ->
  follows (bind_t m k) (bind_t m' k').
Proof.
  intros Hm Hk w tr. unfold bind_t.
  destruct (Hm w tr) as [E|(e & tr' & E)]; rewrite E.
  - destruct (m' w tr) as [[a|e] tr']; [apply Hk | now left].
  - right. now exists e, tr'.
Qed.

Lemma follows_write (s : Stream) (x : string) :
  follows (write_on s x) (write_on steady x).
Proof.
  intros w tr. unfold write_on. cbn [write_raises steady].
  destruct (write_raises s tr x) as [e|]; [right; now exists e, tr | now left].
Qed.

Lemma follows_print (s : Stream) (args : list string) :
  follows (print_on s args) (print_on steady args).
Proof.
  unfold print_on. induction (pieces args) as [|x rest IH]; cbn [write_all].
  - apply follows_refl.
  - apply follows_bind; [apply follows_write | intros _; exact IH].
Qed.

Lemma follows_main (s : Stream) : follows (main_on s) (main_on steady).
Proof.
  unfold main_on.
  repeat (apply follows_bind;
          [first [apply follows_print | apply follows_refl] | intros ?]).
  apply follows_print.
Qed.

(** A run that returns did what the run on [steady] does. *)
Lemma returned_run_on (s : Stream) (w : World) (tr : trace) :
  fst (run_on s w tr) = Returned tt -> run_on s w tr = run_on steady w tr.
Proof.
  unfold run_on. intros H.
  destruct (follows_main s w tr) as [E|(e & tr' & E)]; [exact E|].
  rewrite E in H. discriminate H.
Qed.

(** Unfolds the script on [steady], leaving the printed values folded. *)
Ltac steady_step :=
  cbv beta iota zeta delta
    [run_on main_on bind_t ret_t print_on write_all pieces write_on steady
     write_raises flush_raises time_time_call datetime_now_call
     timestamp_call dunder_file_call fst snd].

Lemma steady_returns (w : World) (tr : trace) :
  fst (run_on steady w tr) = Returned tt.
Proof. steady_step. reflexivity. Qed.

(** On [steady] the stream is given the text that [run] prints. *)
Lemma steady_output (w : World) :
  output (snd (run_on steady w [])) = console (snd (run w fresh)).
Proof.
  rewrite console_run. change (console fresh) with "".
  steady_step. run_step.
  change (Py.int_of_float (time_time w)) with (iat_of w).
  change (Py.int_of_float (Datetime.timestamp (mktime w)
            (Datetime.add (datetime_now w) (Datetime.timedelta_days 180))))
    with (exp_of w).
  cbv beta iota delta [output rev app String.concat line Py.join].
  rewrite !dumps_payload_parts.
  generalize (Py.int_repr (iat_of w)) (Py.int_repr (exp_of w)) (file w).
  intros r1 r2 f.
  rewrite !append_assoc. vm_compute. reflexivity.
Qed.

(** ** C7: how a run ends *)

(** C7, as stated, fails.  On an unbuffered stream whose device is full the
    first [print] raises OSError and the exit status is 1; on a stream
    whose encoding is ASCII, with an accented letter in [__file__], the
    [print] of line 68 raises UnicodeEncodeError and the exit status is 1;
    on a buffered stream whose device is full [main] returns and the exit
    status is 120. *)
Lemma run_fails_on_failing_streams :
  fst (run_on full_unbuffered world_calm []) = Raised "OSError"
  /\ exit_status full_unbuffered (run_on full_unbuffered world_calm []) = 1
  /\ fst (run_on ascii_stream world_accent []) = Raised "UnicodeEncodeError"
  /\ exit_status ascii_stream (run_on ascii_stream world_accent []) = 1
  /\ fst (run_on full_buffered world_calm []) = Returned tt
  /\ exit_status full_buffered (run_on full_buffered world_calm []) = 120.
Proof.
  split; [vm_compute; reflexivity|]. split; [vm_compute; reflexivity|].
  split; [vm_compute; reflexivity|]. split; [vm_compute; reflexivity|].
  split; vm_compute; reflexivity.
Qed.

(** C7, amended: when the encoding of the standard output stream has the
    printable ASCII characters, the newline and the characters of
    [__file__], the stream takes every text in that encoding and the flush
    at exit succeeds, [main] returns no value, raises nothing, the exit
    status is 0 and the stream has been given the text of [run]. *)
Theorem run_exits_zero (s : Stream) (enc : ascii -> bool) (w : World) :
  (forall c, text_char c = true -> enc c = true) ->
  all_chars enc (file w) = true ->
  (forall tr text, all_chars enc text = true -> write_raises s tr text = None) ->
  (forall tr, flush_raises s tr = None) ->
  fst (run_on s w []) = Returned tt
  /\ (forall e, fst (run_on s w []) <> Raised e)
  /\ exit_status s (run_on s w []) = 0
  /\ output (snd (run_on s w [])) = console (snd (run w fresh)).
Proof.
  intros Htext Hfile Htakes Hflush.
  assert (E : run_on s w [] = run_on steady w []).
  { unfold run_on. exact (main_on_steady s enc w [] Htext Hfile Htakes). }
  assert (R : fst (run_on s w []) = Returned tt).
  { rewrite E. apply steady_returns. }
  split; [exact R|]. split; [intros e; rewrite R; discriminate|]. split.
  - unfold exit_status. rewrite Hflush, R. reflexivity.
  - rewrite E. apply steady_output.
Qed.

Lemma text_char_ascii (c : ascii) : text_char c = true -> ascii_char c = true.
Proof.
  destruct c as [[] [] [] [] [] [] [] []]; intros H;
    first [reflexivity | discriminate H].
Qed.

(** The amended C7 at [world_calm] on a stream whose encoding is ASCII. *)
Lemma run_exits_zero_witness :
  fst (run_on ascii_stream world_calm []) = Returned tt
  /\ (forall e, fst (run_on ascii_stream world_calm []) <> Raised e)
  /\ exit_status ascii_stream (run_on ascii_stream world_calm []) = 0
  /\ output (snd (run_on ascii_stream world_calm []))
     = console (snd (run world_calm fresh)).
Proof.
  apply (run_exits_zero ascii_stream ascii_char world_calm).
  - exact text_char_ascii.
  - vm_compute. reflexivity.
  - intros tr text H. cbn. rewrite H. reflexivity.
  - intros tr. reflexivity.
Defined.

(** ** C9: the two clock reads *)

(** The value bound to [exp], on the reading of [datetime.now()]. *)
Lemma exp_arith (mk : Z -> Z) (d : Z) :
  Py.int_of_float
    (Datetime.timestamp mk (Datetime.add d (Datetime.timedelta_days 180)))
  = Z.quot (mk (d / 1000000 + 15552000) * 1000000 + d mod 1000000) 1000000.
Proof.
  rewrite int_of_float_timestamp, wall_seconds_add_days, microsecond_add_days.
  reflexivity.
Qed.

Lemma quot_second (x m : Z) :
  0 <= x -> 0 <= m < 1000000 -> Z.quot (x * 1000000 + m) 1000000 = x.
Proof.
  intros Hx Hm. rewrite Z.quot_div_nonneg by lia.
  rewrite Z.div_add_l by lia. rewrite Z.div_small by lia. lia.
Qed.

(** C9: a run that returns has read the clock exactly twice, first with
    [time.time()] and then with [datetime.now()], both after the header
    and before the payload, which it writes next; the payload carries as
    [iat] the first reading cut toward zero, and as [exp] the second
    reading moved by 180 days of wall clock, converted by the zone and cut
    toward zero.  [exp] does not change with the first reading and [iat]
    does not change with the second; in a zone with a fixed offset, from
    the epoch on, [exp] moves second by second with the second reading
    while [iat] stays. *)
Theorem timestamps_from_two_reads (s : Stream) (w : World) :
  fst (run_on s w []) = Returned tt ->
  (exists before after,
      rev (snd (run_on s w []))
      = (before
         ++ Read_time_time (time_time w)
         :: Read_datetime_now (datetime_now w)
         :: Wrote
              (Json.dumps 2
                 (payload
                    (Z.quot (Qnum (time_time w)) (Zpos (Qden (time_time w))))
                    (Z.quot
                       (mktime w (datetime_now w / 1000000 + 15552000)
                          * 1000000
                        + datetime_now w mod 1000000)
                       1000000)))
         :: after)%list
      /\ forallb is_write before = true
      /\ forallb is_write after = true
      /\ contains (output (rev before)) (Json.dumps 2 header))
  /\ iat_of w = Z.quot (Qnum (time_time w)) (Zpos (Qden (time_time w)))
  /\ exp_of w
     = Z.quot
         (mktime w (datetime_now w / 1000000 + 15552000) * 1000000
          + datetime_now w mod 1000000)
         1000000
  /\ (forall x : Q,
        ((0 <= x -> inject_Z (Py.int_of_float x) <= x
                    /\ x < inject_Z (Py.int_of_float x + 1))
         /\ (x <= 0 -> inject_Z (Py.int_of_float x - 1) < x
                       /\ x <= inject_Z (Py.int_of_float x)))%Q)
  /\ (forall t, exp_of (with_time_time t w) = exp_of w)
  /\ (forall d mk, iat_of (with_datetime_now d mk w) = iat_of w)
  /\ (forall off k,
        (forall x, mktime w x = x + off) ->
        0 <= datetime_now w / 1000000 + 15552000 + off ->
        0 <= k ->
        exp_of (with_datetime_now (datetime_now w + k * 1000000) (mktime w) w)
        = exp_of w + k).
Proof.
  intros H. split.
  - rewrite (returned_run_on s w [] H). steady_step.
    rewrite exp_arith.
    change (Py.int_of_float (time_time w))
      with (Z.quot (Qnum (time_time w)) (Zpos (Qden (time_time w)))).
    cbv beta iota delta [rev app].
    match goal with
    | |- exists b a, ?L = _ /\ _ => exists (firstn 27 L), (skipn 30 L)
    end.
    cbv beta iota delta [firstn skipn app forallb is_write andb rev output].
    split; [reflexivity|]. split; [reflexivity|]. split; [reflexivity|].
    rewrite !append_assoc. find_member.
  - split; [reflexivity|].
    split; [unfold exp_of; apply exp_arith|].
    split; [exact int_of_float_toward_zero|].
    split; [reflexivity|]. split; [reflexivity|].
    intros off k Hzone Hpos Hk.
    unfold exp_of. cbn [mktime datetime_now with_datetime_now].
    rewrite !exp_arith, !Hzone.
    rewrite Z.div_add, Z.mod_add by lia.
    pose proof (Z.mod_pos_bound (datetime_now w) 1000000 ltac:(lia)) as Hm.
    revert Hpos Hm.
    generalize (datetime_now w / 1000000) (datetime_now w mod 1000000).
    intros q m Hpos Hm.
    rewrite !quot_second by lia. lia.
Qed.

(** C9 at [world_calm] on [steady]: the two readings, then the payload
    with [iat] 1700000000 and [exp] 1715552000. *)
Lemma timestamps_from_two_reads_witness :
  exists before after,
    rev (snd (run_on steady world_calm []))
    = (before
       ++ Read_time_time (time_time world_calm)
       :: Read_datetime_now (datetime_now world_calm)
       :: Wrote (Json.dumps 2 (payload 1700000000 1715552000))
       :: after)%list
    /\ forallb is_write before = true
    /\ forallb is_write after = true.
Proof.
  destruct (timestamps_from_two_reads steady world_calm)
    as [(before & after & E & Hb & Ha & _) _].
  - vm_compute. reflexivity.
  - exists before, after. split; [exact E|]. split; assumption.
Defined.
